(** * kWire: the native fixture of the dlfcn tests

    [multiplatform-dlfcn-tests/testlib/testlib.c] is the shared library the
    dynamic-loading tests open.  It exports two symbols,

<<
    TEST_API int testlib_test1()               { return 1337; }
    TEST_API int testlib_test2(int i1, int i2) { return i1 == i2; }
>>

    This development embeds both functions as computations over the state
    of the calling process and proves what the specification says about
    them: their values, and the absence of effects, failures and
    divergence. *)

From Stdlib Require Import ZArith List Lia.
Import ListNotations.

Local Open Scope Z_scope.

(** ** The C type [int]

    On every target of the project [int] is a 32-bit two's complement
    integer.  Values are carried as [Z]; [int_range] is the set of
    representable ones.  Neither function does arithmetic, so nothing
    wraps: what has to be checked is that the returned values are
    representable. *)

Module CInt.

Definition bits : Z := 32.
Definition int_min : Z := - 2 ^ (bits - 1).
Definition int_max : Z := 2 ^ (bits - 1) - 1.

Definition int_range (z : Z) : Prop := int_min <= z <= int_max.

(** The value of a C comparison: an [int] that is 1 when the comparison
    holds and 0 when it does not. *)
Definition of_bool (b : bool) : Z := if b then 1 else 0.

(** [a == b] on two [int] operands. *)
Definition eq (a b : Z) : Z := of_bool (a =? b).

End CInt.

(** ** Process state

    A call runs inside the process that loaded the library.  What a C
    function could read or write is the memory of that process and the
    objects of static storage duration its own translation unit defines. *)

Definition addr : Type := Z.

(** Memory visible to the caller: a partial map from addresses to byte
    values. *)
Definition memory : Type := addr -> option Z.

(** The file-scope and block-scope static objects of [testlib.c], one field
    per object.  The file defines none. *)
Record statics : Set := Statics { }.

Record state : Type := State {
  st_mem : memory;
  st_lib : statics
}.

Definition empty_memory : memory := fun _ => None.
Definition initial_state : state := State empty_memory Statics.

(** ** Computations

    A C function body is a state transformer that either returns a value
    or traps (undefined behaviour, a signal, [abort]). *)

Inductive outcome (A : Type) : Type :=
| Normal (v : A)
| Trap.

Arguments Normal {A} v.
Arguments Trap {A}.

Definition comp (A : Type) : Type := state -> outcome A * state.

Definition ret {A : Type} (v : A) : comp A :=
  fun s => (Normal v, s).

Definition bind {A B : Type} (m : comp A) (k : A -> comp B) : comp B :=
  fun s =>
    match m s with
    | (Normal v, s') => k v s'
    | (Trap, s') => (Trap, s')
    end.

Declare Scope comp_scope.
Delimit Scope comp_scope with comp.
Notation "x <- m ;; k" := (bind m (fun x => k))
  (at level 100, m at next level, right associativity) : comp_scope.
Notation "m ;; k" := (bind m (fun _ => k))
  (at level 100, right associativity) : comp_scope.
Local Open Scope comp_scope.

(** ** The exported functions *)

(** [int testlib_test1() { return 1337; }] *)
Definition testlib_test1 : comp Z :=
  ret 1337.

(** [int testlib_test2(int i1, int i2) { return i1 == i2; }] *)
Definition testlib_test2 (i1 i2 : Z) : comp Z :=
  ret (CInt.eq i1 i2).

(** ** The library as its clients see it

    A client resolves one of the two symbols and calls it; a test run is a
    finite sequence of such calls against the same process state. *)

Inductive call : Type :=
| CallTest1
| CallTest2 (i1 i2 : Z).

Definition invoke (c : call) : comp Z :=
  match c with
  | CallTest1 => testlib_test1
  | CallTest2 i1 i2 => testlib_test2 i1 i2
  end.

(** The calls of [h] one after the other, collecting the returned values;
    a trap ends the run. *)
Fixpoint run (h : list call) : comp (list Z) :=
  match h with
  | [] => ret []
  | c :: h' =>
      r <- invoke c ;;
      rs <- run h' ;;
      ret (r :: rs)
  end.

(** [n] calls of the same computation in a row. *)
Fixpoint repeat_call {A : Type} (n : nat) (m : comp A) : comp (list A) :=
  match n with
  | O => ret []
  | S n' =>
      r <- m ;;
      rs <- repeat_call n' m ;;
      ret (r :: rs)
  end.

(** ** What a call does

    [returned c] is the value call [c] hands back. *)

Definition returned (c : call) : Z :=
  match c with
  | CallTest1 => 1337
  | CallTest2 i1 i2 => CInt.eq i1 i2
  end.

(** [returns m v]: from every state, [m] returns [v] and gives the state
    back as it found it. *)
Definition returns {A : Type} (m : comp A) (v : A) : Prop :=
  forall s, m s = (Normal v, s).

(** ** Running the model *)

Example test1_value :
  testlib_test1 initial_state = (Normal 1337, initial_state).
Proof. reflexivity. Qed.

Example test2_equal :
  fst (testlib_test2 42 42 initial_state) = Normal 1.
Proof. reflexivity. Qed.

Example test2_different :
  fst (testlib_test2 (-1) 2147483647 initial_state) = Normal 0.
Proof. reflexivity. Qed.

Example run_three_calls :
  fst (run [CallTest1; CallTest2 3 4; CallTest2 (-7) (-7)] initial_state)
  = Normal [1337; 0; 1].
Proof. reflexivity. Qed.

Example repeat_test1_thrice :
  repeat_call 3 testlib_test1 initial_state
  = (Normal [1337; 1337; 1337], initial_state).
Proof. reflexivity. Qed.

(** ** Facts about [int] comparison *)

Module CIntFacts.
Import CInt.

Lemma of_bool_range (b : bool) : int_range (of_bool b).
Proof. destruct b; unfold int_range, int_min, int_max, bits; simpl; lia. Qed.

Lemma of_bool_cases (b : bool) : of_bool b = 0 \/ of_bool b = 1.
Proof. destruct b; [right | left]; reflexivity. Qed.

Lemma eq_true_iff (a b : Z) : eq a b = 1 <-> a = b.
Proof.
  unfold eq. destruct (Z.eqb_spec a b) as [E | N]; simpl; split; intro H.
  - exact E.
  - reflexivity.
  - discriminate H.
  - contradiction.
Qed.

Lemma eq_false_iff (a b : Z) : eq a b = 0 <-> a <> b.
Proof.
  unfold eq. destruct (Z.eqb_spec a b) as [E | N]; simpl; split; intro H.
  - discriminate H.
  - contradiction.
  - exact N.
  - reflexivity.
Qed.

Lemma eq_sym (a b : Z) : eq a b = eq b a.
Proof. unfold eq. now rewrite Z.eqb_sym. Qed.

End CIntFacts.

(** ** Computations that only return *)

Create HintDb testlib.

(** Split a conjunction into its conjuncts, and nothing else. *)
Ltac conjuncts := repeat match goal with |- _ /\ _ => split end.

Lemma returns_ret {A : Type} (v : A) : returns (ret v) v.
Proof. intro s. reflexivity. Qed.

Lemma returns_bind {A B : Type} (m : comp A) (k : A -> comp B) (a : A) (b : B) :
  returns m a -> returns (k a) b -> returns (x <- m ;; k x) b.
Proof.
  intros Hm Hk s. unfold bind. rewrite (Hm s). apply Hk.
Qed.

Lemma returns_result {A : Type} (m : comp A) (v : A) (s : state) :
  returns m v -> fst (m s) = Normal v.
Proof. intro Hm. now rewrite (Hm s). Qed.

Lemma returns_frame {A : Type} (m : comp A) (v : A) (s : state) :
  returns m v -> snd (m s) = s.
Proof. intro Hm. now rewrite (Hm s). Qed.

Lemma result_unique {A : Type} (m : comp A) (s : state) (v w : A) :
  fst (m s) = Normal v -> returns m w -> v = w.
Proof.
  intros Hv Hw. rewrite (returns_result m w s Hw) in Hv. now inversion Hv.
Qed.

Lemma testlib_test1_returns : returns testlib_test1 1337.
Proof. apply returns_ret. Qed.

Lemma testlib_test2_returns (i1 i2 : Z) :
  returns (testlib_test2 i1 i2) (CInt.eq i1 i2).
Proof. apply returns_ret. Qed.

Lemma invoke_returns (c : call) : returns (invoke c) (returned c).
Proof.
  destruct c as [ | i1 i2]; simpl.
  - apply testlib_test1_returns.
  - apply testlib_test2_returns.
Qed.

#[export] Hint Resolve returns_ret returns_bind testlib_test1_returns
  testlib_test2_returns invoke_returns : testlib.

Lemma run_returns (h : list call) : returns (run h) (map returned h).
Proof.
  induction h as [ | c h IH]; simpl.
  - apply returns_ret.
  - apply returns_bind with (a := returned c); [apply invoke_returns | ].
    apply returns_bind with (a := map returned h); [exact IH | ].
    apply returns_ret.
Qed.

Lemma repeat_call_returns {A : Type} (m : comp A) (v : A) (n : nat) :
  returns m v -> returns (repeat_call n m) (repeat v n).
Proof.
  intro Hm. induction n as [ | n IH]; simpl.
  - apply returns_ret.
  - eauto with testlib.
Qed.

#[export] Hint Resolve run_returns repeat_call_returns : testlib.

Lemma after_run_returns {A : Type} (h : list call) (m : comp A) (v : A) :
  returns m v -> returns (run h ;; m) v.
Proof. intro Hm. eauto with testlib. Qed.

#[export] Hint Resolve after_run_returns : testlib.

Lemma int_range_1337 : CInt.int_range 1337.
Proof.
  unfold CInt.int_range, CInt.int_min, CInt.int_max, CInt.bits. simpl. lia.
Qed.

Lemma statics_unique (l1 l2 : statics) : l1 = l2.
Proof. destruct l1, l2. reflexivity. Qed.

(** ** The specification's claims *)

(** C1.  For every pair of integers [i1], [i2] and from every state,
    [testlib_test2 i1 i2] returns the result of comparing them for
    equality: a nonzero value when [i1 = i2], and zero when they differ. *)
Theorem testlib_test2_compares_for_equality (i1 i2 : Z) (s : state) :
  exists r : Z,
    fst (testlib_test2 i1 i2 s) = Normal r /\
    ((i1 = i2 /\ r <> 0) \/ (i1 <> i2 /\ r = 0)).
Proof.
  exists (CInt.eq i1 i2). split.
  - apply returns_result, testlib_test2_returns.
  - destruct (Z.eq_dec i1 i2) as [E | N].
    + left. split; [exact E | ].
      apply (proj2 (CIntFacts.eq_true_iff i1 i2)) in E. rewrite E. discriminate.
    + right. split; [exact N | ].
      now apply CIntFacts.eq_false_iff.
Qed.

(** C2.  [testlib_test1] returns a constant: there is one integer [c] that
    every invocation returns, whatever the state it is called in, whatever
    calls of the library came before, and however many times it is called
    in a row; and [c] is the only value it returns. *)
Theorem testlib_test1_constant :
  exists c : Z,
    (forall s, fst (testlib_test1 s) = Normal c) /\
    (forall h s, fst ((run h ;; testlib_test1) s) = Normal c) /\
    (forall n s, fst (repeat_call n testlib_test1 s) = Normal (repeat c n)) /\
    (forall s (c' : Z), fst (testlib_test1 s) = Normal c' -> c' = c).
Proof.
  exists 1337. conjuncts; intros;
    try (apply returns_result; auto with testlib).
  apply (result_unique testlib_test1 s); auto with testlib.
Qed.

(** C3.  Both exported functions are pure and deterministic: two runs with
    the same arguments return the same result, from any two states and
    after any two histories of earlier calls. *)
Theorem testlib_deterministic :
  (forall s1 s2, fst (testlib_test1 s1) = fst (testlib_test1 s2)) /\
  (forall i1 i2 s1 s2,
      fst (testlib_test2 i1 i2 s1) = fst (testlib_test2 i1 i2 s2)) /\
  (forall h1 h2 s1 s2,
      fst ((run h1 ;; testlib_test1) s1) = fst ((run h2 ;; testlib_test1) s2)) /\
  (forall i1 i2 h1 h2 s1 s2,
      fst ((run h1 ;; testlib_test2 i1 i2) s1)
      = fst ((run h2 ;; testlib_test2 i1 i2) s2)).
Proof.
  conjuncts; intros.
  - now rewrite !(returns_result _ 1337) by auto with testlib.
  - now rewrite !(returns_result _ (CInt.eq i1 i2)) by auto with testlib.
  - now rewrite !(returns_result _ 1337) by auto with testlib.
  - now rewrite !(returns_result _ (CInt.eq i1 i2)) by auto with testlib.
Qed.

(** C4.  A call of [testlib_test1] or [testlib_test2] has no side effect:
    for every input the state after the call, caller-visible memory and
    library statics alike, is the state before it; the same holds for any
    sequence of calls; and the library has no mutable state of its own, its
    record of static objects having a single value. *)
Theorem testlib_side_effect_free :
  (forall s, snd (testlib_test1 s) = s) /\
  (forall i1 i2 s, snd (testlib_test2 i1 i2 s) = s) /\
  (forall h s, snd (run h s) = s) /\
  (forall l1 l2 : statics, l1 = l2).
Proof.
  conjuncts; intros.
  - apply (returns_frame _ 1337); auto with testlib.
  - apply (returns_frame _ (CInt.eq i1 i2)); auto with testlib.
  - apply (returns_frame _ (map returned h)); auto with testlib.
  - apply statics_unique.
Qed.

(** C5.  Neither function can fail: for every input and from every state
    the call returns normally, never by a trap, and the value returned is
    a representable [int]. *)
Theorem testlib_never_fails :
  (forall s, exists r : Z,
      fst (testlib_test1 s) = Normal r /\ CInt.int_range r) /\
  (forall i1 i2 s, exists r : Z,
      fst (testlib_test2 i1 i2 s) = Normal r /\ CInt.int_range r) /\
  (forall c s, fst (invoke c s) <> Trap).
Proof.
  conjuncts.
  - intro s. exists 1337. split.
    + apply returns_result; auto with testlib.
    + apply int_range_1337.
  - intros i1 i2 s. exists (CInt.eq i1 i2). split.
    + apply returns_result; auto with testlib.
    + apply CIntFacts.of_bool_range.
  - intros c s. rewrite (returns_result _ (returned c)) by auto with testlib.
    discriminate.
Qed.

(** C6.  Both functions terminate on every input: each body is a single
    [return] of a closed expression, embedded without recursion or fuel,
    so every call hands a result and a state back to its caller, and a run
    of [length h] calls completes with [length h] results. *)
Theorem testlib_terminates :
  (forall s, exists r s', testlib_test1 s = (Normal r, s')) /\
  (forall i1 i2 s, exists r s', testlib_test2 i1 i2 s = (Normal r, s')) /\
  (forall h s, exists rs s',
      run h s = (Normal rs, s') /\ length rs = length h).
Proof.
  conjuncts.
  - intro s. exists 1337, s. apply testlib_test1_returns.
  - intros i1 i2 s. exists (CInt.eq i1 i2), s. apply testlib_test2_returns.
  - intros h s. exists (map returned h), s. split.
    + apply run_returns.
    + apply length_map.
Qed.

(** C7.  [testlib_test1] returns exactly 1337 on every call: from every
    state and after every history of earlier calls. *)
Theorem testlib_test1_returns_1337 :
  (forall s, fst (testlib_test1 s) = Normal 1337) /\
  (forall h s, fst ((run h ;; testlib_test1) s) = Normal 1337).
Proof.
  split; intros; apply returns_result; auto with testlib.
Qed.

(** C8.  For every pair of integers the result of [testlib_test2] is
    exactly 0 or 1, never any other integer. *)
Theorem testlib_test2_zero_or_one (i1 i2 : Z) (s : state) :
  fst (testlib_test2 i1 i2 s) = Normal 0 \/
  fst (testlib_test2 i1 i2 s) = Normal 1.
Proof.
  rewrite (returns_result _ (CInt.eq i1 i2)) by auto with testlib.
  unfold CInt.eq.
  destruct (CIntFacts.of_bool_cases (i1 =? i2)) as [E | E]; rewrite E; auto.
Qed.

(** C9.  [testlib_test2] is commutative: for all integers [a] and [b],
    [testlib_test2 a b] and [testlib_test2 b a] are the same computation,
    with the same result and the same final state from every state. *)
Theorem testlib_test2_commutative (a b : Z) :
  testlib_test2 a b = testlib_test2 b a /\
  forall s, testlib_test2 a b s = testlib_test2 b a s.
Proof.
  assert (E : testlib_test2 a b = testlib_test2 b a).
  { unfold testlib_test2. now rewrite CIntFacts.eq_sym. }
  split; [exact E | intro s; now rewrite E].
Qed.

(** ** Beyond the specification: how the two functions compose

    The remaining lines of [testlib.c] are the [TEST_CALL], [TEST_EXPORT]
    and [TEST_API] macros, which fix linkage and symbol visibility and
    compute nothing.  What follows is read off the two bodies: the
    comparison as a relation on its arguments, and the functions fed with
    each other's results. *)

Lemma test2_one_inv (a b : Z) (s : state) :
  fst (testlib_test2 a b s) = Normal 1 -> a = b.
Proof.
  rewrite (returns_result _ (CInt.eq a b)) by auto with testlib.
  intro H. inversion H as [E]. now apply CIntFacts.eq_true_iff.
Qed.

Lemma test2_same (a : Z) : returns (testlib_test2 a a) 1.
Proof.
  intro s. rewrite (testlib_test2_returns a a s).
  now rewrite (proj2 (CIntFacts.eq_true_iff a a) eq_refl).
Qed.

Lemma test2_distinct (a b : Z) : a <> b -> returns (testlib_test2 a b) 0.
Proof.
  intros N s. rewrite (testlib_test2_returns a b s).
  now rewrite (proj2 (CIntFacts.eq_false_iff a b) N).
Qed.

(** X1.  The comparison is transitive: when [testlib_test2 a b] and
    [testlib_test2 b c] both return 1, in whatever states, so does
    [testlib_test2 a c] in any state. *)
Theorem testlib_test2_transitive (a b c : Z) (s1 s2 s3 : state) :
  fst (testlib_test2 a b s1) = Normal 1 ->
  fst (testlib_test2 b c s2) = Normal 1 ->
  fst (testlib_test2 a c s3) = Normal 1.
Proof.
  intros Hab Hbc.
  apply test2_one_inv in Hab. apply test2_one_inv in Hbc. subst b c.
  apply returns_result, test2_same.
Qed.

Lemma testlib_test2_transitive_witness :
  fst (testlib_test2 (-8) (-8) initial_state) = Normal 1.
Proof.
  apply (testlib_test2_transitive (-8) (-8) (-8)
           initial_state initial_state initial_state); reflexivity.
Defined.

(** X2.  Arguments the comparison accepts are interchangeable: when
    [testlib_test2 a b] returns 1, comparing [a] with any [c] and comparing
    [b] with the same [c] return the same result. *)
Theorem testlib_test2_substitutive (a b c : Z) (s1 s2 s3 : state) :
  fst (testlib_test2 a b s1) = Normal 1 ->
  fst (testlib_test2 a c s2) = fst (testlib_test2 b c s3).
Proof.
  intro Hab. apply test2_one_inv in Hab. subst b.
  now rewrite !(returns_result _ (CInt.eq a c)) by auto with testlib.
Qed.

Lemma testlib_test2_substitutive_witness :
  fst (testlib_test2 12 99 initial_state)
  = fst (testlib_test2 12 99 initial_state).
Proof.
  apply (testlib_test2_substitutive 12 12 99
           initial_state initial_state initial_state); reflexivity.
Defined.

(** X3.  Feeding the result of [testlib_test1] to [testlib_test2]:
    comparing it with [k] returns 1 exactly when [k] is 1337 and 0
    otherwise, and the two calls together leave the state unchanged. *)
Theorem testlib_test2_of_test1 (k : Z) (s : state) :
  exists r : Z,
    (x <- testlib_test1 ;; testlib_test2 x k) s = (Normal r, s) /\
    ((k = 1337 /\ r = 1) \/ (k <> 1337 /\ r = 0)).
Proof.
  destruct (Z.eq_dec k 1337) as [E | N].
  - exists 1. split; [ | left; auto].
    subst k. apply (returns_bind _ _ 1337); [auto with testlib | ].
    apply test2_same.
  - exists 0. split; [ | right; auto].
    apply (returns_bind _ _ 1337); [auto with testlib | ].
    apply test2_distinct. congruence.
Qed.

(** X4.  Feeding [testlib_test2] its own result: comparing the result
    with 1 gives the same result again, and comparing it with 0 gives its
    complement [1 - r]; the state is unchanged in both cases. *)
Theorem testlib_test2_of_result (a b : Z) (s : state) :
  exists r : Z,
    testlib_test2 a b s = (Normal r, s) /\
    (x <- testlib_test2 a b ;; testlib_test2 x 1) s = (Normal r, s) /\
    (x <- testlib_test2 a b ;; testlib_test2 x 0) s = (Normal (1 - r), s).
Proof.
  exists (CInt.eq a b). conjuncts.
  - apply testlib_test2_returns.
  - apply (returns_bind _ _ (CInt.eq a b)); [auto with testlib | ].
    unfold CInt.eq.
    destruct (CIntFacts.of_bool_cases (a =? b)) as [E | E]; rewrite E.
    + apply test2_distinct. discriminate.
    + apply test2_same.
  - apply (returns_bind _ _ (CInt.eq a b)); [auto with testlib | ].
    unfold CInt.eq.
    destruct (CIntFacts.of_bool_cases (a =? b)) as [E | E]; rewrite E.
    + apply test2_same.
    + apply test2_distinct. discriminate.
Qed.

(** X5.  Calls do not interfere: running the calls of [h1] and then those
    of [h2] returns the results of [h1] run alone followed by the results
    of [h2] run alone, from whatever states those two runs start, and
    leaves the state unchanged. *)
Theorem run_app_independent (h1 h2 : list call) (s s1 s2 : state) :
  exists rs1 rs2 : list Z,
    fst (run h1 s1) = Normal rs1 /\
    fst (run h2 s2) = Normal rs2 /\
    run (h1 ++ h2) s = (Normal (rs1 ++ rs2), s).
Proof.
  exists (map returned h1), (map returned h2). conjuncts.
  - apply returns_result, run_returns.
  - apply returns_result, run_returns.
  - rewrite <- map_app. apply run_returns.
Qed.
